(** * Mortgage calculator: the amortization function of [src/App.tsx]

    A shallow embedding of the calculator widget and of the handlers of
    its form, with the properties of its specification.

    The JavaScript [number] type is modelled twice.

    - [JSNumber]: finite values are exact rationals ([Q]), so that the
      formula the code evaluates can be reasoned about as mathematics.
      The three non-finite values are kept, because the code divides: a
      division by zero in JavaScript does not raise, it yields
      [Infinity], [-Infinity] or [NaN], and these then flow through the
      rest of the arithmetic.  Every zero divisor the calculator can
      produce is a positive zero ([x - x], or an integer product), so
      dividing by [Num 0] follows the rule for [+0].  Rounding, overflow,
      underflow and the sign of zero are not in this model.

    - [Binary64]: IEEE 754 binary64 numbers, as the kernel's primitive
      floats, on which the calculator is evaluated at concrete inputs.
      This is where rounding, overflow and underflow show.

    The [years] argument is typed [number] in the source; every call site
    passes the [years] field of a loan-term option, an integer, and both
    models take it in [Z].  [Math.pow] is therefore only needed at integer
    exponents. *)

From Stdlib Require Import QArith Qminmax Qpower ZArith List String Bool.
From Stdlib Require Import Lia Lqa Setoid Morphisms.
From Stdlib Require Floats.
Import ListNotations.

Open Scope Q_scope.

(** ** JavaScript numbers *)

Module JSNumber.

Inductive number : Type :=
| Num (q : Q)
| PosInf
| NegInf
| NaN.

Definition of_Z (z : Z) : number := Num (inject_Z z).

(** Sign of a finite value, as a three-way comparison with zero. *)
Definition sign (q : Q) : comparison := q ?= 0.

(** Unary minus. *)
Definition num_neg (x : number) : number :=
  match x with
  | Num a => Num (- a)
  | PosInf => NegInf
  | NegInf => PosInf
  | NaN => NaN
  end.

(** [x + y]. *)
Definition num_add (x y : number) : number :=
  match x, y with
  | NaN, _ | _, NaN => NaN
  | Num a, Num b => Num (a + b)
  | PosInf, NegInf | NegInf, PosInf => NaN
  | PosInf, _ | _, PosInf => PosInf
  | NegInf, _ | _, NegInf => NegInf
  end.

(** [x - y], the sum of [x] and the negation of [y]. *)
Definition num_sub (x y : number) : number := num_add x (num_neg y).

(** An infinity of the given sign. *)
Definition signed_inf (s : comparison) : number :=
  match s with
  | Gt => PosInf
  | Lt => NegInf
  | Eq => NaN
  end.

(** [x * y]: an infinity times zero is [NaN]. *)
Definition num_mul (x y : number) : number :=
  match x, y with
  | NaN, _ | _, NaN => NaN
  | Num a, Num b => Num (a * b)
  | PosInf, Num b => signed_inf (sign b)
  | Num a, PosInf => signed_inf (sign a)
  | NegInf, Num b => signed_inf (CompOpp (sign b))
  | Num a, NegInf => signed_inf (CompOpp (sign a))
  | PosInf, PosInf | NegInf, NegInf => PosInf
  | PosInf, NegInf | NegInf, PosInf => NegInf
  end.

(** [x / y]: a finite value over zero is an infinity of the sign of the
    dividend, zero over zero is [NaN]; a finite value over an infinity is
    zero; an infinity over an infinity is [NaN]. *)
Definition num_div (x y : number) : number :=
  match x, y with
  | NaN, _ | _, NaN => NaN
  | Num a, Num b =>
      if Qeq_bool b 0 then signed_inf (sign a) else Num (a / b)
  | Num _, PosInf | Num _, NegInf => Num 0
  | PosInf, Num b =>
      match sign b with Lt => NegInf | _ => PosInf end
  | NegInf, Num b =>
      match sign b with Lt => PosInf | _ => NegInf end
  | _, _ => NaN
  end.

(** [Math.max(x, y)]: [NaN] when either argument is. *)
Definition num_max (x y : number) : number :=
  match x, y with
  | NaN, _ | _, NaN => NaN
  | Num a, Num b => Num (Qmax a b)
  | PosInf, _ | _, PosInf => PosInf
  | NegInf, z | z, NegInf => z
  end.

(** [x === y]: [NaN] is equal to nothing, itself included. *)
Definition num_strict_eq (x y : number) : bool :=
  match x, y with
  | Num a, Num b => Qeq_bool a b
  | PosInf, PosInf | NegInf, NegInf => true
  | _, _ => false
  end.

(** [Math.pow(x, n)] at an integer exponent: anything to the power zero
    is one; zero to a negative power is [Infinity]. *)
Definition num_pow (x : number) (n : Z) : number :=
  match n with
  | Z0 => Num 1
  | Zpos _ =>
      match x with
      | Num a => Num (a ^ n)
      | PosInf => PosInf
      | NegInf => if Z.odd n then NegInf else PosInf
      | NaN => NaN
      end
  | Zneg _ =>
      match x with
      | Num a => if Qeq_bool a 0 then PosInf else Num (a ^ n)
      | PosInf | NegInf => Num 0
      | NaN => NaN
      end
  end.

(** Sameness of values: finite values are compared as rationals and
    [NaN] is the same value as [NaN] (unlike [===]). *)
Definition num_eq (x y : number) : Prop :=
  match x, y with
  | Num a, Num b => a == b
  | PosInf, PosInf | NegInf, NegInf | NaN, NaN => True
  | _, _ => False
  end.

(** [x <= y]: false as soon as one side is [NaN]. *)
Definition num_le (x y : number) : Prop :=
  match x, y with
  | NaN, _ | _, NaN => False
  | Num a, Num b => a <= b
  | NegInf, _ | _, PosInf => True
  | _, _ => False
  end.

Definition is_finite (x : number) : Prop := exists q, x = Num q.

End JSNumber.

Import JSNumber.

Declare Scope number_scope.
Delimit Scope number_scope with num.
Bind Scope number_scope with number.
Notation "x + y" := (num_add x y) : number_scope.
Notation "x - y" := (num_sub x y) : number_scope.
Notation "x * y" := (num_mul x y) : number_scope.
Notation "x / y" := (num_div x y) : number_scope.
Notation "x === y" := (num_strict_eq x y) (at level 70, no associativity).

(** ** The calculator *)

Record LoanTermOption : Type := {
  label : string;
  years : Z
}.

Definition LOAN_TERMS : list LoanTermOption := [
  {| label := "15 years (fix)"; years := 15 |};
  {| label := "20 years (fix)"; years := 20 |};
  {| label := "30 years (fix)"; years := 30 |}
].

Definition DEFAULT_PURCHASE_PRICE : number := Num 990000.
Definition DEFAULT_DOWN_PAYMENT : number := Num 22002.
Definition DEFAULT_RATE : number := Num (4264 # 1000).

(** [LOAN_TERMS[1]]; indexing past the end of an array gives
    [undefined], which is [None] here. *)
Definition DEFAULT_TERM : option LoanTermOption := nth_error LOAN_TERMS 1.

Definition HOMEOWNERS_INSURANCE : number := Num 80.
Definition PROPERTY_TAX : number := Num 1300.

(** The three intermediate values of the calculator ([loanAmount],
    [monthlyRate], [n]).  The loan amount is computed a second time by
    the component, for display. *)
Definition loanAmountOf (purchasePrice downPayment : number) : number :=
  num_max (purchasePrice - downPayment) (Num 0).

Definition monthlyRateOf (annualRatePercent : number) : number :=
  (annualRatePercent / Num 100 / Num 12)%num.

Definition installmentsOf (years : Z) : Z := (years * 12)%Z.

Definition calculateMonthlyPrincipalAndInterest
    (purchasePrice downPayment annualRatePercent : number) (years : Z)
    : number :=
  let loanAmount := loanAmountOf purchasePrice downPayment in
  if loanAmount === Num 0 then Num 0 else
  let monthlyRate := monthlyRateOf annualRatePercent in
  let n := installmentsOf years in
  if monthlyRate === Num 0 then (loanAmount / of_Z n)%num else
  let numerator := (monthlyRate * num_pow (Num 1 + monthlyRate) n)%num in
  let denominator := (num_pow (Num 1 + monthlyRate) n - Num 1)%num in
  (loanAmount * (numerator / denominator))%num.

(** ** The calculator on binary64 numbers *)

(** [Math.pow] is left implementation-approximated by the language: its
    last digits are not specified.  [pow] evaluates it by repeated
    multiplication, which has the same special values (one at exponent
    zero and at base one, [Infinity] on overflow, zero on underflow) and
    can differ from an engine's result in the last digits only.  [of_Z] is
    exact below [2^53]. *)
Module Binary64.

Import Floats.
#[local] Open Scope float_scope.

Definition of_Z (z : Z) : float :=
  match z with
  | Z0 => 0
  | Zpos _ => of_uint63 (Uint63.of_Z z)
  | Zneg p => - of_uint63 (Uint63.of_Z (Zpos p))
  end.

(** [Math.max(x, y)]: [NaN] when either argument is; of two zeros the
    positive one. *)
Definition max (x y : float) : float :=
  if is_nan x || is_nan y then nan
  else if x <? y then y
  else if y <? x then x
  else if x =? 0 then x + y
  else x.

Definition pow (x : float) (n : Z) : float :=
  match n with
  | Z0 => 1
  | Zpos p => Pos.iter (fun acc => acc * x) 1 p
  | Zneg p => 1 / Pos.iter (fun acc => acc * x) 1 p
  end.

Definition calculateMonthlyPrincipalAndInterest
    (purchasePrice downPayment annualRatePercent : float) (years : Z)
    : float :=
  let loanAmount := max (purchasePrice - downPayment) 0 in
  if loanAmount =? 0 then 0 else
  let monthlyRate := annualRatePercent / 100 / 12 in
  let n := (years * 12)%Z in
  if monthlyRate =? 0 then loanAmount / of_Z n else
  let numerator := monthlyRate * pow (1 + monthlyRate) n in
  let denominator := pow (1 + monthlyRate) n - 1 in
  loanAmount * (numerator / denominator).

End Binary64.

(** ** Component state and the loan-term handler *)

(** The four pieces of state of the component.  [term] is a loan-term
    option or [undefined] ([None]). *)
Record AppState : Type := {
  purchasePrice : number;
  downPayment : number;
  rate : number;
  term : option LoanTermOption
}.

Definition initialState : AppState := {|
  purchasePrice := DEFAULT_PURCHASE_PRICE;
  downPayment := DEFAULT_DOWN_PAYMENT;
  rate := DEFAULT_RATE;
  term := DEFAULT_TERM
|}.

Definition setTerm (t : option LoanTermOption) (s : AppState) : AppState :=
  {| purchasePrice := purchasePrice s;
     downPayment := downPayment s;
     rate := rate s;
     term := t |}.

(** [a || b] where [a] is an object or [undefined]: objects are truthy. *)
Definition or_else {A : Type} (a b : option A) : option A :=
  match a with
  | Some _ => a
  | None => b
  end.

(** The [onChange] handler of the loan-term [select], from the point
    where the selected value has been converted to a number. *)
Definition onTermChange (value : number) (s : AppState) : AppState :=
  let selected := find (fun t => of_Z (years t) === value) LOAN_TERMS in
  setTerm (or_else selected DEFAULT_TERM) s.

(** The memoised principal-and-interest figure; reading [term.years] of
    an [undefined] term throws, which is [None]. *)
Definition principalAndInterest (s : AppState) : option number :=
  match term s with
  | Some t =>
      Some (calculateMonthlyPrincipalAndInterest
              (purchasePrice s) (downPayment s) (rate s) (years t))
  | None => None
  end.

Definition totalPayment (s : AppState) : option number :=
  match principalAndInterest s with
  | Some p => Some (p + HOMEOWNERS_INSURANCE + PROPERTY_TAX)%num
  | None => None
  end.

(** ** The handlers of the numeric inputs and the events of the form *)

(** [Number.isNaN(x)]. *)
Definition Number_isNaN (x : number) : bool :=
  match x with
  | NaN => true
  | _ => false
  end.

Definition setPurchasePrice (v : number) (s : AppState) : AppState :=
  {| purchasePrice := v;
     downPayment := downPayment s;
     rate := rate s;
     term := term s |}.

Definition setDownPayment (v : number) (s : AppState) : AppState :=
  {| purchasePrice := purchasePrice s;
     downPayment := v;
     rate := rate s;
     term := term s |}.

Definition setRate (v : number) (s : AppState) : AppState :=
  {| purchasePrice := purchasePrice s;
     downPayment := downPayment s;
     rate := v;
     term := term s |}.

(** The [onChange] handlers of the numeric inputs, from the point where
    the text of the field has been converted to a number:
    [Number.isNaN(v) ? 0 : v].  The slider and the number field of the
    purchase price share one handler. *)
Definition onPurchasePriceChange (value : number) (s : AppState) : AppState :=
  setPurchasePrice (if Number_isNaN value then Num 0 else value) s.

Definition onDownPaymentChange (value : number) (s : AppState) : AppState :=
  setDownPayment (if Number_isNaN value then Num 0 else value) s.

Definition onRateChange (value : number) (s : AppState) : AppState :=
  setRate (if Number_isNaN value then Num 0 else value) s.

(** The "Loan amount" line of the result card. *)
Definition displayedLoanAmount (s : AppState) : number :=
  num_max (purchasePrice s - downPayment s) (Num 0).

(** One user action on the form, carrying the converted value of the
    field, and the run of a sequence of actions. *)
Inductive Event : Type :=
| PurchasePriceInput (value : number)
| DownPaymentInput (value : number)
| RateInput (value : number)
| TermSelect (value : number).

Definition handle (e : Event) (s : AppState) : AppState :=
  match e with
  | PurchasePriceInput v => onPurchasePriceChange v s
  | DownPaymentInput v => onDownPaymentChange v s
  | RateInput v => onRateChange v s
  | TermSelect v => onTermChange v s
  end.

Definition run (events : list Event) (s : AppState) : AppState :=
  fold_left (fun st e => handle e st) events s.

(** A state in which no numeric field is [NaN] and the term is one of the
    options of [LOAN_TERMS]. *)
Definition wellFormed (s : AppState) : Prop :=
  Number_isNaN (purchasePrice s) = false /\
  Number_isNaN (downPayment s) = false /\
  Number_isNaN (rate s) = false /\
  exists t, term s = Some t /\ In t LOAN_TERMS.

(** ** Quantities of the specification, over the rationals *)

(** The loan amount and the monthly rate of finite inputs: the values of
    [loanAmountOf] and [monthlyRateOf] at finite arguments (lemmas
    [loanAmountOf_finite] and [monthlyRateOf_finite]). *)
Definition loanAmountQ (purchasePrice downPayment : Q) : Q :=
  Qmax (purchasePrice - downPayment) 0.

Definition monthlyRateQ (annualRatePercent : Q) : Q :=
  annualRatePercent / 100 / 12.

(** Balance left after [k] installments: each month the balance accrues
    interest at [monthlyRate] and one [payment] is deducted. *)
Fixpoint balance_after (k : nat) (balance monthlyRate payment : Q) : Q :=
  match k with
  | O => balance
  | S k' =>
      balance_after k' (balance * (1 + monthlyRate) - payment)
                    monthlyRate payment
  end.

(** Present value of [n] unit installments discounted by [v] per period:
    [v + v^2 + ... + v^n], in Horner form. *)
Fixpoint annuity (v : Q) (n : nat) : Q :=
  match n with
  | O => 0
  | S k => v * (1 + annuity v k)
  end.

(** The divisors of the divisions executed by one call of the
    calculator, in execution order, following its control flow. *)
Definition divisorsPerformed
    (purchasePrice downPayment annualRatePercent : number) (years : Z)
    : list number :=
  let loanAmount := loanAmountOf purchasePrice downPayment in
  if loanAmount === Num 0 then [] else
  let monthlyRate := monthlyRateOf annualRatePercent in
  let n := installmentsOf years in
  Num 100 :: Num 12 ::
  (if monthlyRate === Num 0 then [of_Z n]
   else [(num_pow (Num 1 + monthlyRate) n - Num 1)%num]).

Definition nonzero_divisor (d : number) : Prop :=
  exists q, d = Num q /\ ~ q == 0.

(** * Properties *)

(** ** The calculator on sample inputs *)

Example calc_zero_rate :
  num_eq (calculateMonthlyPrincipalAndInterest (Num 120000) (Num 0) (Num 0) 15)
         (Num (2000 # 3)).
Proof. vm_compute. reflexivity. Qed.

Example calc_no_loan :
  calculateMonthlyPrincipalAndInterest (Num 100000) (Num 100000) (Num 5) 30
  = Num 0.
Proof. reflexivity. Qed.

Example calc_zero_term :
  calculateMonthlyPrincipalAndInterest (Num 100) (Num 0) (Num 12) 0 = PosInf.
Proof. reflexivity. Qed.

Example calc_negative_term :
  num_le (calculateMonthlyPrincipalAndInterest (Num 100) (Num 0) (Num 12) (-1))
         (Num 0).
Proof. vm_compute. discriminate. Qed.

Example term_known :
  term (onTermChange (Num 15) initialState)
  = Some {| label := "15 years (fix)"; years := 15 |}.
Proof. reflexivity. Qed.

Example term_unknown :
  term (onTermChange (Num 25) initialState)
  = Some {| label := "20 years (fix)"; years := 20 |}.
Proof. reflexivity. Qed.

(** ** The number model *)

Section NumberFacts.

Lemma num_eq_refl (x : number) : num_eq x x.
Proof. destruct x; simpl; auto with qarith. Qed.

Lemma num_eq_sym (x y : number) : num_eq x y -> num_eq y x.
Proof. destruct x, y; simpl; auto with qarith. Qed.

Lemma num_eq_trans (x y z : number) : num_eq x y -> num_eq y z -> num_eq x z.
Proof.
  destruct x, y, z; simpl; try tauto.
  intros H1 H2. now rewrite H1.
Qed.

#[export] Instance num_eq_equivalence : Equivalence num_eq.
Proof.
  split.
  - exact num_eq_refl.
  - exact num_eq_sym.
  - exact num_eq_trans.
Qed.

Lemma sign_compat (a b : Q) : a == b -> sign a = sign b.
Proof. intros H. unfold sign. now rewrite H. Qed.

#[export] Instance num_strict_eq_proper :
  Proper (num_eq ==> num_eq ==> eq) num_strict_eq.
Proof.
  intros x x' Hx y y' Hy.
  destruct x, x'; simpl in Hx; try contradiction;
    destruct y, y'; simpl in Hy; try contradiction; simpl; auto.
  now rewrite Hx, Hy.
Qed.

#[export] Instance num_neg_proper : Proper (num_eq ==> num_eq) num_neg.
Proof.
  intros x x' Hx.
  destruct x, x'; simpl in Hx; try contradiction; simpl; auto.
  now rewrite Hx.
Qed.

#[export] Instance num_max_proper :
  Proper (num_eq ==> num_eq ==> num_eq) num_max.
Proof.
  intros x x' Hx y y' Hy.
  destruct x, x'; simpl in Hx; try contradiction;
    destruct y, y'; simpl in Hy; try contradiction; simpl; auto.
  now apply Q.max_compat.
Qed.

#[export] Instance num_mul_proper :
  Proper (num_eq ==> num_eq ==> num_eq) num_mul.
Proof.
  intros x x' Hx y y' Hy.
  destruct x, x'; simpl in Hx; try contradiction;
    destruct y, y'; simpl in Hy; try contradiction; simpl; auto;
    try (now rewrite Hx, Hy);
    try (rewrite (sign_compat _ _ Hx); apply num_eq_refl);
    try (rewrite (sign_compat _ _ Hy); apply num_eq_refl).
Qed.

#[export] Instance num_div_proper :
  Proper (num_eq ==> num_eq ==> num_eq) num_div.
Proof.
  intros x x' Hx y y' Hy.
  destruct x, x'; simpl in Hx; try contradiction;
    destruct y, y'; simpl in Hy; try contradiction; simpl; auto with qarith;
    try (rewrite (sign_compat _ _ Hy); apply num_eq_refl).
  rewrite (Qeqb_comp _ _ Hy 0 0 (Qeq_refl 0)).
  destruct (Qeq_bool q2 0).
  - rewrite (sign_compat _ _ Hx). apply num_eq_refl.
  - simpl. now rewrite Hx, Hy.
Qed.

End NumberFacts.

(** ** Rational arithmetic *)

Section RationalFacts.

Lemma Qeq_bool_false (a b : Q) : ~ a == b -> Qeq_bool a b = false.
Proof.
  intros H. destruct (Qeq_bool a b) eqn:E; auto.
  apply Qeq_bool_eq in E. contradiction.
Qed.

Lemma sign_pos (a : Q) : 0 < a -> sign a = Gt.
Proof. intros H. unfold sign. now apply Qgt_alt. Qed.

Lemma num_div_finite (a b : Q) :
  ~ b == 0 -> (Num a / Num b)%num = Num (a / b).
Proof. intros H. simpl. now rewrite (Qeq_bool_false _ _ H). Qed.

Lemma num_div_by_zero (a b : Q) :
  b == 0 -> (Num a / Num b)%num = signed_inf (sign a).
Proof. intros H. simpl. now rewrite (Qeq_eq_bool _ _ H). Qed.

Lemma num_pow_finite (a : Q) (n : Z) :
  ~ a == 0 -> n <> 0%Z -> num_pow (Num a) n = Num (a ^ n).
Proof.
  intros Ha Hn. destruct n; simpl num_pow.
  - contradiction.
  - reflexivity.
  - now rewrite (Qeq_bool_false _ _ Ha).
Qed.

Lemma monthlyRateQ_scale (rate : Q) : monthlyRateQ rate == rate * (1 # 1200).
Proof. unfold monthlyRateQ. field. Qed.

Lemma monthlyRateQ_sign (rate : Q) :
  (0 <= rate -> 0 <= monthlyRateQ rate) /\
  (0 < rate -> 0 < monthlyRateQ rate) /\
  (monthlyRateQ rate == 0 <-> rate == 0).
Proof. rewrite monthlyRateQ_scale. repeat split; intros; lra. Qed.

Lemma monthlyRateQ_le (r1 r2 : Q) :
  r1 <= r2 -> monthlyRateQ r1 <= monthlyRateQ r2.
Proof. rewrite !monthlyRateQ_scale. intros; lra. Qed.

Lemma installments_pos (years : Z) :
  (0 < years)%Z -> (0 < installmentsOf years)%Z.
Proof. unfold installmentsOf. lia. Qed.

Lemma loanAmountQ_nonneg (pp dp : Q) : 0 <= loanAmountQ pp dp.
Proof. apply Q.le_max_r. Qed.

(** Compound growth [(1+r)^n] against one. *)
Lemma growth_gt_1 (q : Q) (n : Z) : 1 < q -> (0 < n)%Z -> 0 < q ^ n - 1.
Proof.
  intros Hq Hn. pose proof (Qpower_1_lt q n Hq Hn). lra.
Qed.

Lemma growth_lt_1 (q : Q) (n : Z) : 1 < q -> (n < 0)%Z -> q ^ n - 1 < 0.
Proof.
  intros Hq Hn. pose proof (Qpower_lt_compat_l q n 0 Hn Hq) as H.
  simpl in H. lra.
Qed.

Lemma growth_neq_1 (q : Q) (n : Z) : 1 < q -> n <> 0%Z -> ~ q ^ n - 1 == 0.
Proof.
  intros Hq Hn.
  destruct (Z.lt_total n 0) as [H | [H | H]].
  - pose proof (growth_lt_1 q n Hq H). lra.
  - contradiction.
  - pose proof (growth_gt_1 q n Hq H). lra.
Qed.

Lemma Qpower_succ_nat (q : Q) (k : nat) :
  ~ q == 0 -> q ^ Z.of_nat (S k) == q * q ^ Z.of_nat k.
Proof.
  intros Hq. rewrite Nat2Z.inj_succ. unfold Z.succ.
  rewrite (Qpower_plus q _ 1 Hq). simpl (q ^ 1). ring.
Qed.

Lemma Qinv_le_contravar (a b : Q) : 0 < a -> a <= b -> / b <= / a.
Proof.
  intros Ha Hab.
  assert (Hb : 0 < b) by lra.
  apply Qle_shift_inv_l; [exact Ha |].
  setoid_replace (/ b * a) with (a / b) by (field; lra).
  apply Qle_shift_div_r; [exact Hb | lra].
Qed.

Lemma Qdiv_le_compat_l (x a b : Q) :
  0 <= x -> 0 < a -> a <= b -> x / b <= x / a.
Proof.
  intros Hx Ha Hab. unfold Qdiv.
  pose proof (Qinv_le_contravar a b Ha Hab).
  rewrite !(Qmult_comm x).
  now apply Qmult_le_compat_r.
Qed.

Lemma Qdiv_le_compat_r (x y a : Q) :
  0 < a -> x <= y -> x / a <= y / a.
Proof.
  intros Ha Hxy. unfold Qdiv.
  apply Qmult_le_compat_r; [exact Hxy |].
  apply Qlt_le_weak. now apply Qinv_lt_0_compat.
Qed.

End RationalFacts.

(** ** The calculator on finite inputs, branch by branch *)

Section FiniteInputs.

Variables purchasePrice downPayment annualRatePercent : Q.
Variable years : Z.

Local Abbreviation L := (loanAmountQ purchasePrice downPayment).
Local Abbreviation r := (monthlyRateQ annualRatePercent).
Local Abbreviation n := (installmentsOf years).

Lemma loanAmountOf_finite :
  loanAmountOf (Num purchasePrice) (Num downPayment) = Num L.
Proof. reflexivity. Qed.

Lemma monthlyRateOf_finite :
  monthlyRateOf (Num annualRatePercent) = Num r.
Proof. reflexivity. Qed.

Lemma calculate_no_loan (x : number) :
  L == 0 ->
  calculateMonthlyPrincipalAndInterest (Num purchasePrice) (Num downPayment)
    x years = Num 0.
Proof.
  intros H. unfold calculateMonthlyPrincipalAndInterest.
  rewrite loanAmountOf_finite. simpl num_strict_eq.
  now rewrite (Qeq_eq_bool _ _ H).
Qed.

Lemma calculate_zero_rate :
  ~ L == 0 -> r == 0 ->
  calculateMonthlyPrincipalAndInterest (Num purchasePrice) (Num downPayment)
    (Num annualRatePercent) years = (Num L / of_Z n)%num.
Proof.
  intros HL Hr. unfold calculateMonthlyPrincipalAndInterest.
  rewrite loanAmountOf_finite, monthlyRateOf_finite. simpl num_strict_eq.
  rewrite (Qeq_bool_false _ _ HL). now rewrite (Qeq_eq_bool _ _ Hr).
Qed.

Lemma calculate_interest :
  ~ L == 0 -> ~ r == 0 ->
  calculateMonthlyPrincipalAndInterest (Num purchasePrice) (Num downPayment)
    (Num annualRatePercent) years
  = (Num L * (Num r * num_pow (Num (1 + r)) n
              / (num_pow (Num (1 + r)) n - Num 1)))%num.
Proof.
  intros HL Hr. unfold calculateMonthlyPrincipalAndInterest.
  rewrite loanAmountOf_finite, monthlyRateOf_finite. simpl num_strict_eq.
  now rewrite (Qeq_bool_false _ _ HL), (Qeq_bool_false _ _ Hr).
Qed.

(** With a positive rate and a term other than zero the annuity branch
    stays finite. *)
Lemma calculate_interest_finite :
  ~ L == 0 -> 0 < r -> years <> 0%Z ->
  calculateMonthlyPrincipalAndInterest (Num purchasePrice) (Num downPayment)
    (Num annualRatePercent) years
  = Num (L * (r * (1 + r) ^ n / ((1 + r) ^ n - 1))).
Proof.
  intros HL Hr Hy.
  assert (Hn : n <> 0%Z) by (unfold installmentsOf; lia).
  assert (Hq : 1 < 1 + r) by lra.
  rewrite calculate_interest by (auto; lra).
  rewrite num_pow_finite by (auto; lra).
  change (Num ((1 + r) ^ n) - Num 1)%num with (Num ((1 + r) ^ n - 1)).
  change (Num r * Num ((1 + r) ^ n))%num with (Num (r * (1 + r) ^ n)).
  rewrite num_div_finite by (now apply growth_neq_1).
  reflexivity.
Qed.

Lemma calculate_zero_rate_finite :
  ~ L == 0 -> r == 0 -> years <> 0%Z ->
  calculateMonthlyPrincipalAndInterest (Num purchasePrice) (Num downPayment)
    (Num annualRatePercent) years
  = Num (L / inject_Z n).
Proof.
  intros HL Hr Hy.
  assert (Hn : n <> 0%Z) by (unfold installmentsOf; lia).
  rewrite calculate_zero_rate by auto.
  unfold of_Z. apply num_div_finite.
  intros H. apply Hn. apply (inject_Z_injective n 0). exact H.
Qed.

End FiniteInputs.

(** ** The annuity sum *)

Section Annuity.

Lemma annuity_compat (v w : Q) (k : nat) :
  v == w -> annuity v k == annuity w k.
Proof.
  intros H. induction k as [| k IH]; simpl.
  - reflexivity.
  - now rewrite IH, H.
Qed.

Lemma annuity_one (k : nat) : annuity 1 k == inject_Z (Z.of_nat k).
Proof.
  induction k as [| k IH].
  - reflexivity.
  - rewrite Nat2Z.inj_succ. unfold Z.succ. rewrite inject_Z_plus.
    simpl annuity. rewrite IH. simpl (inject_Z 1). ring.
Qed.

Lemma annuity_nonneg (v : Q) (k : nat) : 0 <= v -> 0 <= annuity v k.
Proof.
  intros Hv. induction k as [| k IH]; simpl.
  - lra.
  - nra.
Qed.

Lemma annuity_pos (v : Q) (k : nat) : 0 < v -> 0 < annuity v (S k).
Proof.
  intros Hv. pose proof (annuity_nonneg v k (Qlt_le_weak _ _ Hv)).
  simpl. nra.
Qed.

Lemma annuity_mono (v w : Q) (k : nat) :
  0 <= v -> v <= w -> annuity v k <= annuity w k.
Proof.
  intros Hv Hvw. induction k as [| k IH]; simpl.
  - lra.
  - pose proof (annuity_nonneg v k Hv). nra.
Qed.

(** Closed form of the sum: with [q = 1 + r], discounting by [1/q],
    [annuity * r * q^k = q^k - 1]. *)
Lemma annuity_closed (q : Q) (k : nat) :
  0 < q ->
  annuity (/ q) k * ((q - 1) * q ^ Z.of_nat k) == q ^ Z.of_nat k - 1.
Proof.
  intros Hq. assert (Hq0 : ~ q == 0) by lra.
  induction k as [| k IH].
  - simpl. ring.
  - rewrite (Qpower_succ_nat q k Hq0).
    set (P := q ^ Z.of_nat k) in *. simpl annuity.
    set (a := annuity (/ q) k) in *.
    transitivity ((q - 1) * P + a * ((q - 1) * P)).
    + field. exact Hq0.
    + rewrite IH. ring.
Qed.

End Annuity.

(** ** The simulated balance *)

(** Closed form of the simulated balance, cleared of the division by the
    rate. *)
Lemma balance_after_closed (k : nat) (B r P : Q) :
  ~ 1 + r == 0 ->
  r * balance_after k B r P
  == r * B * (1 + r) ^ Z.of_nat k - P * ((1 + r) ^ Z.of_nat k - 1).
Proof.
  intros Hq. revert B. induction k as [| k IH]; intros B.
  - simpl. ring.
  - rewrite (Qpower_succ_nat _ k Hq). simpl balance_after. rewrite IH. ring.
Qed.

(** ** The payment as loan amount over annuity *)

Section Payment.

Variables purchasePrice downPayment annualRatePercent : Q.
Variable years : Z.

Local Abbreviation L := (loanAmountQ purchasePrice downPayment).
Local Abbreviation r := (monthlyRateQ annualRatePercent).
Local Abbreviation n := (installmentsOf years).

Hypothesis rate_nonneg : 0 <= annualRatePercent.
Hypothesis years_pos : (0 < years)%Z.

(** Both branches of the calculator compute the same quantity: the loan
    amount divided by the present value of [n] unit installments.  At a
    zero rate the discount factor is one and the sum is [n]. *)
Lemma calculate_annuity :
  exists P,
    calculateMonthlyPrincipalAndInterest (Num purchasePrice)
      (Num downPayment) (Num annualRatePercent) years = Num P /\
    P == L / annuity (/ (1 + r)) (Z.to_nat n).
Proof.
  pose proof (installments_pos years years_pos) as Hn.
  destruct (monthlyRateQ_sign annualRatePercent) as (Hr0 & _ & Hrz).
  specialize (Hr0 rate_nonneg).
  assert (Hy : years <> 0%Z) by lia.
  destruct (Qeq_dec L 0) as [HL | HL].
  - exists 0. split.
    + now apply calculate_no_loan.
    + rewrite HL. unfold Qdiv. ring.
  - destruct (Qeq_dec r 0) as [Hr | Hr].
    + exists (L / inject_Z n). split.
      * now apply calculate_zero_rate_finite.
      * assert (E : / (1 + r) == 1) by (rewrite Hr; reflexivity).
        rewrite (annuity_compat _ _ _ E), annuity_one.
        rewrite Z2Nat.id by lia. reflexivity.
    + assert (Hr' : 0 < r) by lra.
      exists (L * (r * (1 + r) ^ n / ((1 + r) ^ n - 1))). split.
      * now apply calculate_interest_finite.
      * pose proof (annuity_closed (1 + r) (Z.to_nat n)) as C.
        rewrite Z2Nat.id in C by lia.
        assert (Hq : 0 < 1 + r) by lra. specialize (C Hq).
        assert (Hg : 0 < (1 + r) ^ n - 1) by (apply growth_gt_1; [lra | lia]).
        set (P := (1 + r) ^ n) in *.
        set (a := annuity (/ (1 + r)) (Z.to_nat n)) in *.
        assert (Ha : ~ a == 0).
        { intros Ha. rewrite Ha in C. lra. }
        assert (E : P - 1 == a * (r * P)).
        { rewrite <- C. ring. }
        rewrite E. field. repeat split; auto; lra.
Qed.

Lemma annuity_installments_pos :
  0 < annuity (/ (1 + r)) (Z.to_nat n).
Proof.
  pose proof (installments_pos years years_pos) as Hn.
  destruct (monthlyRateQ_sign annualRatePercent) as (Hr0 & _ & _).
  specialize (Hr0 rate_nonneg).
  destruct (Z.to_nat n) as [| k] eqn:E; [lia |].
  apply annuity_pos. apply Qinv_lt_0_compat. lra.
Qed.

End Payment.

(** ** The loan-term handler *)

Section Handler.

(** The strict-equality test of the handler agrees with sameness of
    values on the years of an option, which are finite. *)
Lemma years_strict_eq (z : Z) (value : number) :
  (of_Z z === value) = true <-> num_eq value (of_Z z).
Proof.
  unfold of_Z. destruct value; simpl; try (split; [discriminate | tauto]).
  rewrite Qeq_bool_iff. split; intros H; now symmetry.
Qed.

Lemma find_years_none (value : number) :
  (forall t, In t LOAN_TERMS -> ~ num_eq value (of_Z (years t))) ->
  find (fun t => of_Z (years t) === value) LOAN_TERMS = None.
Proof.
  intros H.
  destruct (find (fun t => of_Z (years t) === value) LOAN_TERMS) as [t |] eqn:F;
    [| reflexivity].
  apply find_some in F. destruct F as (Hin & Ht).
  apply years_strict_eq in Ht. destruct (H t Hin Ht).
Qed.

Lemma find_years_some (value : number) (t : LoanTermOption) :
  In t LOAN_TERMS -> num_eq value (of_Z (years t)) ->
  find (fun t => of_Z (years t) === value) LOAN_TERMS = Some t.
Proof.
  intros Hin Hv.
  destruct value as [q | | |]; simpl in Hv; try contradiction.
  unfold LOAN_TERMS in *. simpl in Hin.
  destruct Hin as [<- | [<- | [<- | []]]]; simpl in Hv; simpl;
    rewrite !(Qeq_bool_comm _ q);
    repeat match goal with
    | |- context [Qeq_bool q ?c] =>
        first [ rewrite (Qeq_eq_bool q c) by exact Hv
              | rewrite (Qeq_bool_false q c)
                  by (rewrite Hv; discriminate) ]
    end; reflexivity.
Qed.

Lemma term_onTermChange (value : number) (s : AppState) :
  term (onTermChange value s)
  = or_else (find (fun t => of_Z (years t) === value) LOAN_TERMS) DEFAULT_TERM.
Proof. reflexivity. Qed.

(** Whatever value the handler receives, the term it stores is one of
    the options of [LOAN_TERMS], whose years are positive. *)
Lemma LOAN_TERMS_years_pos (t : LoanTermOption) :
  In t LOAN_TERMS -> (0 < years t)%Z.
Proof.
  unfold LOAN_TERMS. simpl.
  intros [<- | [<- | [<- | []]]]; reflexivity.
Qed.

Lemma onTermChange_selectable (value : number) (s : AppState) :
  exists t,
    term (onTermChange value s) = Some t /\ In t LOAN_TERMS /\
    (0 < years t)%Z.
Proof.
  rewrite term_onTermChange.
  destruct (find (fun t => of_Z (years t) === value) LOAN_TERMS)
    as [t |] eqn:F.
  - apply find_some in F. destruct F as (Hin & _).
    exists t. repeat split; [exact Hin | now apply LOAN_TERMS_years_pos].
  - eexists. split; [reflexivity |].
    split; [right; left; reflexivity | reflexivity].
Qed.

End Handler.

(** * The formula in exact arithmetic *)

(** In exact arithmetic the formula is monotone: at a fixed rate [>= 0]
    and a fixed positive term the result does not decrease when the loan
    amount grows, and at a fixed loan amount it does not decrease when
    the rate grows over [rate >= 0], the zero rate included.  This is a
    fact about the formula; the evaluation on binary64 numbers departs
    from it (see the claims). *)
Lemma exact_arithmetic_monotone (years : Z) :
  (0 < years)%Z ->
  (forall purchasePrice1 downPayment1 purchasePrice2 downPayment2
          annualRatePercent : Q,
     0 <= annualRatePercent ->
     loanAmountQ purchasePrice1 downPayment1
       <= loanAmountQ purchasePrice2 downPayment2 ->
     num_le
       (calculateMonthlyPrincipalAndInterest (Num purchasePrice1)
          (Num downPayment1) (Num annualRatePercent) years)
       (calculateMonthlyPrincipalAndInterest (Num purchasePrice2)
          (Num downPayment2) (Num annualRatePercent) years))
  /\
  (forall purchasePrice downPayment rate1 rate2 : Q,
     0 <= rate1 -> rate1 <= rate2 ->
     num_le
       (calculateMonthlyPrincipalAndInterest (Num purchasePrice)
          (Num downPayment) (Num rate1) years)
       (calculateMonthlyPrincipalAndInterest (Num purchasePrice)
          (Num downPayment) (Num rate2) years)).
Proof.
  intros Hy. split.
  - intros pp1 dp1 pp2 dp2 rate Hrate HL.
    destruct (calculate_annuity pp1 dp1 rate years Hrate Hy) as (P1 & E1 & H1).
    destruct (calculate_annuity pp2 dp2 rate years Hrate Hy) as (P2 & E2 & H2).
    rewrite E1, E2. simpl. rewrite H1, H2.
    apply Qdiv_le_compat_r; [| exact HL].
    now apply annuity_installments_pos.
  - intros pp dp rate1 rate2 H1 H12.
    assert (H2 : 0 <= rate2) by lra.
    destruct (calculate_annuity pp dp rate1 years H1 Hy) as (P1 & E1 & F1).
    destruct (calculate_annuity pp dp rate2 years H2 Hy) as (P2 & E2 & F2).
    rewrite E1, E2. simpl. rewrite F1, F2.
    pose proof (monthlyRateQ_le _ _ H12) as Hr.
    destruct (monthlyRateQ_sign rate1) as (Hr1 & _ & _). specialize (Hr1 H1).
    apply Qdiv_le_compat_l.
    + apply loanAmountQ_nonneg.
    + now apply annuity_installments_pos.
    + apply annuity_mono.
      * apply Qinv_le_0_compat. lra.
      * apply Qinv_le_contravar; lra.
Qed.

(** In exact arithmetic, with a rate [>= 0] and a positive term, no
    division has a zero divisor: the installment count is positive, the
    denominator [(1+monthlyRate)^n - 1] is positive when the monthly rate
    is, every divisor met on the executed path is a nonzero finite number
    and the result is finite.  This is a fact about the formula; on
    binary64 numbers [1 + monthlyRate] can round to [1] (see the
    claims). *)
Lemma exact_arithmetic_divisors_nonzero
    (purchasePrice downPayment annualRatePercent : Q) (years : Z) :
  0 <= annualRatePercent ->
  (0 < years)%Z ->
  (0 < installmentsOf years)%Z /\
  (0 < monthlyRateQ annualRatePercent ->
   0 < (1 + monthlyRateQ annualRatePercent) ^ installmentsOf years - 1) /\
  Forall nonzero_divisor
    (divisorsPerformed (Num purchasePrice) (Num downPayment)
       (Num annualRatePercent) years) /\
  is_finite
    (calculateMonthlyPrincipalAndInterest (Num purchasePrice)
       (Num downPayment) (Num annualRatePercent) years).
Proof.
  intros Hrate Hy.
  pose proof (installments_pos years Hy) as Hn.
  destruct (monthlyRateQ_sign annualRatePercent) as (Hr0 & _ & _).
  specialize (Hr0 Hrate).
  set (r := monthlyRateQ annualRatePercent) in *.
  assert (Hg : 0 < r -> 0 < (1 + r) ^ installmentsOf years - 1).
  { intros Hr. apply growth_gt_1; [lra | exact Hn]. }
  repeat split; [exact Hn | exact Hg | |].
  - unfold divisorsPerformed.
    rewrite loanAmountOf_finite, monthlyRateOf_finite. fold r.
    simpl num_strict_eq.
    destruct (Qeq_bool (loanAmountQ purchasePrice downPayment) 0);
      [constructor |].
    constructor; [exists 100; split; [reflexivity | discriminate] |].
    constructor; [exists 12; split; [reflexivity | discriminate] |].
    destruct (Qeq_bool r 0) eqn:E.
    + constructor; [| constructor].
      exists (inject_Z (installmentsOf years)). split; [reflexivity |].
      intros H.
      assert (H0 : installmentsOf years = 0%Z)
        by (apply (inject_Z_injective _ 0); exact H).
      lia.
    + apply Qeq_bool_neq in E. assert (Hr : 0 < r) by lra.
      constructor; [| constructor].
      exists ((1 + r) ^ installmentsOf years - 1). split.
      * change (Num 1 + Num r)%num with (Num (1 + r)).
        rewrite num_pow_finite by (try lra; lia). reflexivity.
      * specialize (Hg Hr). lra.
  - destruct (calculate_annuity purchasePrice downPayment annualRatePercent
                years Hrate Hy) as (P & E & _).
    exists P. exact E.
Qed.

(** * The claims of the specification *)





(** C4: at a zero rate and a positive term the calculator returns
    [loanAmount / (years * 12)] (zero when there is nothing to lend). *)
Theorem C4_zero_rate (purchasePrice downPayment annualRatePercent : Q)
    (years : Z) :
  annualRatePercent == 0 ->
  (0 < years)%Z ->
  num_eq
    (calculateMonthlyPrincipalAndInterest (Num purchasePrice)
       (Num downPayment) (Num annualRatePercent) years)
    (Num (loanAmountQ purchasePrice downPayment / inject_Z (years * 12))).
Proof.
  intros Hrate Hy.
  destruct (Qeq_dec (loanAmountQ purchasePrice downPayment) 0) as [HL | HL].
  - rewrite calculate_no_loan by exact HL. simpl. rewrite HL.
    unfold Qdiv. ring.
  - rewrite calculate_zero_rate_finite.
    + apply num_eq_refl.
    + exact HL.
    + now apply monthlyRateQ_sign.
    + lia.
Qed.

Lemma C4_zero_rate_witness :
  0 == 0 /\ (0 < 15)%Z /\
  num_eq
    (calculateMonthlyPrincipalAndInterest (Num 120000) (Num 0) (Num 0) 15)
    (Num (loanAmountQ 120000 0 / inject_Z (15 * 12))).
Proof.
  split; [reflexivity | split; [reflexivity |]].
  apply (C4_zero_rate 120000 0 0 15); reflexivity.
Defined.

(** C5: when the purchase price does not exceed the down payment the loan
    amount is zero and the calculator returns [0], whatever the rate (any
    number, [NaN] and the infinities included) and the term. *)
Theorem C5_no_loan (purchasePrice downPayment : Q) (annualRatePercent : number)
    (years : Z) :
  purchasePrice <= downPayment ->
  num_eq (loanAmountOf (Num purchasePrice) (Num downPayment)) (Num 0) /\
  calculateMonthlyPrincipalAndInterest (Num purchasePrice) (Num downPayment)
    annualRatePercent years = Num 0.
Proof.
  intros H.
  assert (E : loanAmountQ purchasePrice downPayment == 0).
  { unfold loanAmountQ. apply Q.max_r. lra. }
  split.
  - rewrite loanAmountOf_finite. exact E.
  - now apply calculate_no_loan.
Qed.

Lemma C5_no_loan_witness :
  100000 <= 100000 /\
  num_eq (loanAmountOf (Num 100000) (Num 100000)) (Num 0) /\
  calculateMonthlyPrincipalAndInterest (Num 100000) (Num 100000) NaN 0
  = Num 0.
Proof.
  split; [discriminate |].
  apply (C5_no_loan 100000 100000 NaN 0). discriminate.
Defined.

(** C7: for a purchase price of 990000, a down payment of 22002, a rate of
    4.264 percent and a term of 20 years, the loan amount is 967998, there
    are 240 installments, and the monthly principal-and-interest figure
    lies between 6000 and 6100. *)
Theorem C7_default_scenario :
  loanAmountOf (Num 990000) (Num 22002) = Num 967998 /\
  installmentsOf 20 = 240%Z /\
  exists P,
    calculateMonthlyPrincipalAndInterest (Num 990000) (Num 22002)
      (Num (4264 # 1000)) 20 = Num P /\
    6000 < P /\ P < 6100.
Proof.
  split; [vm_compute; reflexivity | split; [reflexivity |]].
  eexists. split.
  - apply calculate_interest_finite;
      [vm_compute; discriminate | vm_compute; reflexivity | discriminate].
  - split; vm_compute; reflexivity.
Qed.

(** C8: when the value received by the loan-term handler is the [years]
    of one of the options of [LOAN_TERMS] (15, 20 or 30), the term becomes
    that option; for every other value, [NaN] included, it becomes
    [DEFAULT_TERM], which is the 20-year option and not [undefined].  The
    other fields of the state are left as they were. *)
Theorem C8_term_selection (value : number) (s : AppState) :
  (forall t, In t LOAN_TERMS -> num_eq value (of_Z (years t)) ->
             term (onTermChange value s) = Some t) /\
  ((forall t, In t LOAN_TERMS -> ~ num_eq value (of_Z (years t))) ->
   term (onTermChange value s) = DEFAULT_TERM /\
   DEFAULT_TERM = Some {| label := "20 years (fix)"; years := 20 |}) /\
  purchasePrice (onTermChange value s) = purchasePrice s /\
  downPayment (onTermChange value s) = downPayment s /\
  rate (onTermChange value s) = rate s.
Proof.
  split; [| split; [| repeat split]].
  - intros t Hin Hv.
    now rewrite term_onTermChange, (find_years_some value t Hin Hv).
  - intros H.
    rewrite term_onTermChange, (find_years_none value H). split; reflexivity.
Qed.

Lemma C8_term_selection_witness :
  (In {| label := "30 years (fix)"; years := 30 |} LOAN_TERMS /\
   num_eq (Num 30) (of_Z 30) /\
   term (onTermChange (Num 30) initialState)
   = Some {| label := "30 years (fix)"; years := 30 |})
  /\
  ((forall t, In t LOAN_TERMS -> ~ num_eq NaN (of_Z (years t))) /\
   term (onTermChange NaN initialState)
   = Some {| label := "20 years (fix)"; years := 20 |}).
Proof.
  split.
  - split; [right; right; left; reflexivity | split; [reflexivity |]].
    apply (proj1 (C8_term_selection (Num 30) initialState)
             {| label := "30 years (fix)"; years := 30 |}).
    + right; right; left; reflexivity.
    + reflexivity.
  - assert (H : forall t, In t LOAN_TERMS -> ~ num_eq NaN (of_Z (years t)))
      by (intros t _ []).
    split; [exact H |].
    destruct (proj1 (proj2 (C8_term_selection NaN initialState)) H)
      as [E1 E2].
    now rewrite E1.
Defined.

Section Binary64Evaluation.

Import Floats.
#[local] Open Scope float_scope.

(** C3: on binary64 numbers the result is not monotone in the rate next
    to the zero-rate branch.  For a loan of 1000 over 15 years the
    payment at the rate [2^-41] percent is lower than the payment at the
    rate zero; over 30 years the payment at the rate [2^-50] percent is
    [Infinity], above the payment at the rate of one percent. *)
Theorem C3_rate_order_lost_in_binary64 :
  (0 <? 0x1p-41) = true /\
  (Binary64.calculateMonthlyPrincipalAndInterest 1000 0 0x1p-41 15
   <? Binary64.calculateMonthlyPrincipalAndInterest 1000 0 0 15) = true /\
  (0x1p-50 <? 1) = true /\
  Binary64.calculateMonthlyPrincipalAndInterest 1000 0 0x1p-50 30
  = infinity /\
  (Binary64.calculateMonthlyPrincipalAndInterest 1000 0 1 30
   <? Binary64.calculateMonthlyPrincipalAndInterest 1000 0 0x1p-50 30) = true.
Proof. repeat split; vm_compute; reflexivity. Qed.

(** C6: on binary64 numbers the calculator divides by zero at a positive
    rate and a positive term.  At the rate [2^-50] percent the monthly
    rate is positive, [1 + monthlyRate] rounds to [1], so that over 30
    years the denominator [(1+monthlyRate)^360 - 1] is zero and the result
    for a loan of 1000 is [Infinity]. *)
Theorem C6_division_by_zero_in_binary64 :
  (0 <? 0x1p-50 / 100 / 12) = true /\
  1 + 0x1p-50 / 100 / 12 = 1 /\
  Binary64.pow (1 + 0x1p-50 / 100 / 12) (30 * 12) - 1 = 0 /\
  Binary64.calculateMonthlyPrincipalAndInterest 1000 0 0x1p-50 30
  = infinity.
Proof. repeat split; vm_compute; reflexivity. Qed.



End Binary64Evaluation.





(** * Further properties of the code *)

(** ** Edge behaviour of the calculator *)

(** A term of zero years is not guarded: with something to lend and a
    rate [>= 0], the division by [n = 0] (zero rate) or by
    [(1+monthlyRate)^0 - 1 = 0] makes the result [Infinity]. *)
Theorem zero_term_gives_infinity
    (purchasePrice downPayment annualRatePercent : Q) :
  downPayment < purchasePrice ->
  0 <= annualRatePercent ->
  calculateMonthlyPrincipalAndInterest (Num purchasePrice) (Num downPayment)
    (Num annualRatePercent) 0 = PosInf.
Proof.
  intros Hloan Hrate.
  assert (HL : 0 < loanAmountQ purchasePrice downPayment).
  { unfold loanAmountQ. rewrite Q.max_l by lra. lra. }
  destruct (monthlyRateQ_sign annualRatePercent) as (Hr0 & _ & _).
  specialize (Hr0 Hrate).
  set (L := loanAmountQ purchasePrice downPayment) in *.
  set (r := monthlyRateQ annualRatePercent) in *.
  destruct (Qeq_dec r 0) as [Hr | Hr].
  - rewrite calculate_zero_rate by (fold L r; auto; lra). fold L.
    change (installmentsOf 0) with 0%Z. unfold of_Z.
    rewrite num_div_by_zero by reflexivity. now rewrite sign_pos.
  - rewrite calculate_interest by (fold L r; auto; lra). fold L r.
    change (installmentsOf 0) with 0%Z. simpl num_pow.
    change (Num 1 - Num 1)%num with (Num (1 - 1)).
    change (Num r * Num 1)%num with (Num (r * 1)).
    rewrite num_div_by_zero by reflexivity.
    rewrite (sign_pos (r * 1)) by lra.
    simpl. now rewrite (sign_pos L).
Qed.

Lemma zero_term_gives_infinity_witness :
  0 < 100 /\ 0 <= 12 /\
  calculateMonthlyPrincipalAndInterest (Num 100) (Num 0) (Num 12) 0 = PosInf.
Proof.
  split; [reflexivity | split; [discriminate |]].
  apply (zero_term_gives_infinity 100 0 12); [reflexivity | discriminate].
Defined.

(** [NaN] is not absorbed: a purchase price or a down payment that is
    [NaN] makes the result [NaN] for every other argument, and so does a
    rate that is [NaN] as soon as there is something to lend (with nothing
    to lend the early return gives [0] before the rate is read). *)
Theorem nan_propagates (x annualRatePercent : number) (years : Z) :
  calculateMonthlyPrincipalAndInterest NaN x annualRatePercent years = NaN /\
  calculateMonthlyPrincipalAndInterest x NaN annualRatePercent years = NaN /\
  (forall purchasePrice downPayment : Q,
     downPayment < purchasePrice ->
     calculateMonthlyPrincipalAndInterest (Num purchasePrice)
       (Num downPayment) NaN years = NaN).
Proof.
  split; [| split].
  - unfold calculateMonthlyPrincipalAndInterest, loanAmountOf. simpl.
    destruct (monthlyRateOf annualRatePercent === Num 0); reflexivity.
  - unfold calculateMonthlyPrincipalAndInterest, loanAmountOf.
    assert (E : (x - NaN)%num = NaN) by (destruct x; reflexivity).
    rewrite E. simpl.
    destruct (monthlyRateOf annualRatePercent === Num 0); reflexivity.
  - intros pp dp Hloan.
    assert (HL : 0 < loanAmountQ pp dp).
    { unfold loanAmountQ. rewrite Q.max_l by lra. lra. }
    unfold calculateMonthlyPrincipalAndInterest.
    rewrite loanAmountOf_finite. simpl num_strict_eq.
    rewrite Qeq_bool_false by lra.
    change (monthlyRateOf NaN) with NaN. simpl num_strict_eq. cbv iota.
    change (Num 1 + NaN)%num with NaN.
    destruct (installmentsOf years); reflexivity.
Qed.

Lemma nan_propagates_witness :
  0 < 100 /\
  calculateMonthlyPrincipalAndInterest (Num 100) (Num 0) NaN 30 = NaN.
Proof.
  split; [reflexivity |].
  apply (proj2 (proj2 (nan_propagates NaN NaN 30)) 100 0). reflexivity.
Defined.

(** ** The form: handlers, events and the displayed figures *)

Lemma loanAmountQ_zero_iff (purchasePrice downPayment : Q) :
  loanAmountQ purchasePrice downPayment == 0 <-> purchasePrice <= downPayment.
Proof.
  unfold loanAmountQ. split; intros H.
  - destruct (Qlt_le_dec downPayment purchasePrice) as [H' | H']; [| exact H'].
    rewrite Q.max_l in H by lra. lra.
  - apply Q.max_r. lra.
Qed.

Section Form.

Lemma coerced_not_NaN (v : number) :
  Number_isNaN (if Number_isNaN v then Num 0 else v) = false.
Proof. destruct v; reflexivity. Qed.

Lemma wellFormed_initialState : wellFormed initialState.
Proof.
  repeat split; try reflexivity.
  eexists. split; [reflexivity | right; left; reflexivity].
Qed.

Lemma handle_wellFormed (e : Event) (s : AppState) :
  wellFormed s -> wellFormed (handle e s).
Proof.
  intros (Hp & Hd & Hr & Ht).
  destruct e as [v | v | v | v]; simpl; repeat split;
    try assumption; try apply coerced_not_NaN.
  destruct (onTermChange_selectable v s) as (t & E & Hin & _).
  exists t. split; assumption.
Qed.

Lemma run_wellFormed (events : list Event) (s : AppState) :
  wellFormed s -> wellFormed (run events s).
Proof.
  revert s. induction events as [| e events IH]; intros s H.
  - exact H.
  - simpl. apply IH. now apply handle_wellFormed.
Qed.

End Form.

(** Whatever the user does, in any order and with any values, the state
    stays well formed: no numeric field holds [NaN], the term is one of
    the three options and never [undefined], so that reading [term.years]
    cannot fail and the payment figures are always computed. *)
Theorem form_state_invariant (events : list Event) :
  wellFormed (run events initialState) /\
  (exists p, principalAndInterest (run events initialState) = Some p) /\
  (exists p, totalPayment (run events initialState) = Some p).
Proof.
  pose proof (run_wellFormed events initialState wellFormed_initialState)
    as H.
  split; [exact H |].
  destruct H as (_ & _ & _ & t & Ht & _).
  unfold totalPayment, principalAndInterest. rewrite Ht.
  split; eexists; reflexivity.
Qed.

(** The loan-term [select] is controlled by [term.years]: feeding the
    years of the stored option back into its handler leaves the state as
    it is, for every state whose term is one of the options. *)
Theorem select_round_trip (s : AppState) (t : LoanTermOption) :
  term s = Some t -> In t LOAN_TERMS ->
  onTermChange (of_Z (years t)) s = s.
Proof.
  intros Ht Hin.
  pose proof (find_years_some (of_Z (years t)) t Hin (num_eq_refl _)) as F.
  unfold onTermChange. rewrite F.
  destruct s as [pp dp rt tm]. simpl in Ht. subst tm. reflexivity.
Qed.

Lemma select_round_trip_witness :
  term initialState = Some {| label := "20 years (fix)"; years := 20 |} /\
  In {| label := "20 years (fix)"; years := 20 |} LOAN_TERMS /\
  onTermChange (of_Z 20) initialState = initialState.
Proof.
  split; [reflexivity | split; [right; left; reflexivity |]].
  apply (select_round_trip initialState
           {| label := "20 years (fix)"; years := 20 |});
    [reflexivity | right; left; reflexivity].
Defined.


